(** * RadarMetadataPoller: the refresh logic of [frontend/src/App.js]

    A shallow embedding of the [App] component: its four state hooks, the
    asynchronous [fetchMetadata] callback, the mount effect that arms the
    five-minute interval, and the two conditional children of the rendered
    tree.  JavaScript values are untyped, so the payload returned by
    [res.json()] is modelled as a JavaScript value and every property read
    follows the language's rules (a read on [undefined] or [null] throws a
    [TypeError], a missing property reads as [undefined]). *)

From Stdlib Require Import ZArith List String Ascii Bool Lia PrimFloat.
From Stdlib Require Import DecimalString.
Import ListNotations.
Open Scope string_scope.
Open Scope Z_scope.
Set Warnings "-register-all,-inexact-float".

(** ** JavaScript values *)

Module JS.

(** Values that [JSON.parse] can produce, plus [undefined], which a property
    read produces.  An object is the list of its own properties; the parser
    keeps one entry per key, so the first match is the property. *)
Inductive value : Type :=
| VUndef
| VNull
| VBool (b : bool)
| VNum (f : float)
| VStr (s : string)
| VArr (elems : list value)
| VObj (props : list (string * value)).

Inductive exn : Type :=
| NetworkFailure                (* fetch() rejected *)
| JsonSyntaxError               (* res.json() rejected *)
| TypeError (msg : string).     (* property read on undefined or null *)

Inductive result (A : Type) : Type :=
| Ok (a : A)
| Throw (e : exn).
Arguments Ok {A} a.
Arguments Throw {A} e.

Fixpoint assoc (k : string) (ps : list (string * value)) : option value :=
  match ps with
  | [] => None
  | (k', v) :: ps' => if String.eqb k k' then Some v else assoc k ps'
  end.

Definition or_undefined (o : option value) : value :=
  match o with Some v => v | None => VUndef end.

(** [o.name] for a name that no prototype defines ([image_url],
    [last_updated], [bounds]): an own property of an object, [undefined] on
    every other non-nullish value, a [TypeError] on [undefined] and [null]. *)
Definition get_prop (o : value) (name : string) : result value :=
  match o with
  | VUndef => Throw (TypeError ("Cannot read properties of undefined (reading '" ++ name ++ "')"))
  | VNull => Throw (TypeError ("Cannot read properties of null (reading '" ++ name ++ "')"))
  | VObj ps => Ok (or_undefined (assoc name ps))
  | _ => Ok VUndef
  end.

Definition index_key (i : nat) : string :=
  NilEmpty.string_of_uint (Nat.to_uint i).

(** [o[i]] for a literal index: an array element, a one-character string
    (strings are taken as sequences of single-unit characters), the property
    named by the index on an object, [undefined] when absent. *)
Definition get_index (o : value) (i : nat) : result value :=
  match o with
  | VUndef => Throw (TypeError ("Cannot read properties of undefined (reading '" ++ index_key i ++ "')"))
  | VNull => Throw (TypeError ("Cannot read properties of null (reading '" ++ index_key i ++ "')"))
  | VArr l => Ok (or_undefined (nth_error l i))
  | VStr s => Ok (match String.get i s with
                  | Some c => VStr (String c EmptyString)
                  | None => VUndef
                  end)
  | VObj ps => Ok (or_undefined (assoc (index_key i) ps))
  | _ => Ok VUndef
  end.

(** ToBoolean. *)
Definition truthy (v : value) : bool :=
  match v with
  | VUndef | VNull => false
  | VBool b => b
  | VNum f => negb (PrimFloat.eqb f 0%float || PrimFloat.is_nan f)
  | VStr s => negb (String.eqb s "")
  | VArr _ | VObj _ => true
  end.

(** The result of [v && x] as a React child: the element when [v] is truthy,
    the falsy value itself otherwise (React draws nothing for [undefined],
    [null], [false] and the empty string). *)
Inductive child (A : Type) : Type :=
| Skipped (falsy : value)
| Rendered (a : A).
Arguments Skipped {A} falsy.
Arguments Rendered {A} a.

Definition and_then {A : Type} (v : value) (x : A) : child A :=
  if truthy v then Rendered x else Skipped v.

End JS.


(** ** The component *)

Module App.
Import JS.

(** The four [useState] cells of [App], in declaration order. *)
Record Hooks : Type := mkHooks {
  metadata : value;
  radarUrl : value;
  lastUpdated : value;
  bounds : value
}.

Definition default_bounds : value :=
  VArr [VArr [VNum 20.0%float; VNum (-130.0)%float];
        VArr [VNum 55.0%float; VNum (-60.0)%float]].

(** The arguments of the four [useState] calls. *)
Definition initial_hooks : Hooks :=
  {| metadata := VNull;
     radarUrl := VNull;
     lastUpdated := VNull;
     bounds := default_bounds |}.

(** The part of the hooks that the rendered tree reads. *)
Record DisplayState : Type := mkDisplay {
  ds_radarUrl : value;
  ds_lastUpdated : value;
  ds_bounds : value
}.

Definition displayState (h : Hooks) : DisplayState :=
  {| ds_radarUrl := radarUrl h;
     ds_lastUpdated := lastUpdated h;
     ds_bounds := bounds h |}.

(** A call of one of the four setters returned by [useState]. *)
Inductive SetterCall : Type :=
| SetMetadata (v : value)
| SetRadarUrl (v : value)
| SetLastUpdated (v : value)
| SetBounds (v : value).

Definition apply_setter (h : Hooks) (c : SetterCall) : Hooks :=
  match c with
  | SetMetadata v => mkHooks v (radarUrl h) (lastUpdated h) (bounds h)
  | SetRadarUrl v => mkHooks (metadata h) v (lastUpdated h) (bounds h)
  | SetLastUpdated v => mkHooks (metadata h) (radarUrl h) v (bounds h)
  | SetBounds v => mkHooks (metadata h) (radarUrl h) (lastUpdated h) v
  end.

(** *** What the component renders from its hooks *)

Record Overlay : Type := mkOverlay {
  url : value;
  overlay_bounds : value;
  opacity : float
}.

Record View : Type := mkView {
  last_updated_line : child value;   (* <p>Last Updated: {lastUpdated}</p> *)
  image_overlay : child Overlay      (* <ImageOverlay url bounds opacity /> *)
}.

Definition render (h : Hooks) : View :=
  {| last_updated_line := and_then (lastUpdated h) (lastUpdated h);
     image_overlay :=
       and_then (radarUrl h) (mkOverlay (radarUrl h) (bounds h) 0.7%float) |}.

(** *** The runtime around the component *)

(** How the runtime commits setter calls made outside its own event handlers
    (here: in the continuation of an [await]).  [Automatic] collects the calls
    of one task and renders once when the task ends; [Legacy] renders
    synchronously inside every setter call.  Which one applies is decided by
    the root API of the application shell, not by [App.js]. *)
Inductive Policy : Type := Automatic | Legacy.

Record Config : Type := mkConfig {
  REACT_APP_BACKEND : option string;   (* process.env.REACT_APP_BACKEND *)
  batching : Policy
}.

Inductive Phase : Type := Fresh | Active | TornDown.

(** One component instance together with the timer, the network and the
    console it talks to.  [now] is the virtual clock in milliseconds,
    [interval] the next due time of the armed [setInterval] timer, [inflight]
    the number of requests whose promise is still pending, [requests] the
    calls of [fetch] (oldest first), [calls] the setter calls with the phase
    they were made in (oldest first), [renders] the committed hook snapshots
    handed to the consumers (newest first). *)
Record World : Type := mkWorld {
  now : Z;
  phase : Phase;
  hooks : Hooks;
  pending : list SetterCall;
  renders : list Hooks;
  calls : list (Phase * SetterCall);
  interval : option Z;
  inflight : nat;
  requests : list (Z * string);
  console : list exn
}.

Definition init_world (t0 : Z) : World :=
  {| now := t0; phase := Fresh; hooks := initial_hooks; pending := [];
     renders := []; calls := []; interval := None; inflight := 0%nat;
     requests := []; console := [] |}.

Definition with_now (t : Z) (w : World) : World :=
  mkWorld t (phase w) (hooks w) (pending w) (renders w) (calls w)
          (interval w) (inflight w) (requests w) (console w).

Definition with_phase (p : Phase) (w : World) : World :=
  mkWorld (now w) p (hooks w) (pending w) (renders w) (calls w)
          (interval w) (inflight w) (requests w) (console w).

Definition with_interval (i : option Z) (w : World) : World :=
  mkWorld (now w) (phase w) (hooks w) (pending w) (renders w) (calls w)
          i (inflight w) (requests w) (console w).

Definition with_inflight (n : nat) (w : World) : World :=
  mkWorld (now w) (phase w) (hooks w) (pending w) (renders w) (calls w)
          (interval w) n (requests w) (console w).

Definition log_request (u : string) (w : World) : World :=
  mkWorld (now w) (phase w) (hooks w) (pending w) (renders w) (calls w)
          (interval w) (inflight w) (requests w ++ [(now w, u)]) (console w).

Definition log_console (e : exn) (w : World) : World :=
  mkWorld (now w) (phase w) (hooks w) (pending w) (renders w) (calls w)
          (interval w) (inflight w) (requests w) (console w ++ [e]).

Definition log_call (c : SetterCall) (w : World) : World :=
  mkWorld (now w) (phase w) (hooks w) (pending w) (renders w)
          (calls w ++ [(phase w, c)])
          (interval w) (inflight w) (requests w) (console w).

Definition enqueue (c : SetterCall) (w : World) : World :=
  mkWorld (now w) (phase w) (hooks w) (pending w ++ [c]) (renders w) (calls w)
          (interval w) (inflight w) (requests w) (console w).

(** Commit the queued updates and render once; nothing to do on an empty
    queue.  A commit is recorded even when it leaves every hook as it was. *)
Definition flush (w : World) : World :=
  match pending w with
  | [] => w
  | _ :: _ =>
      let h := fold_left apply_setter (pending w) (hooks w) in
      mkWorld (now w) (phase w) h [] (h :: renders w) (calls w)
              (interval w) (inflight w) (requests w) (console w)
  end.

(** A setter call.  The runtime drops updates addressed to a component that
    is not mounted; on a mounted one the update is queued and, under
    [Legacy], committed at once. *)
Definition set_state_w (p : Policy) (c : SetterCall) (w : World) : World :=
  let w1 := log_call c w in
  match phase w1 with
  | Active =>
      match p with
      | Automatic => enqueue c w1
      | Legacy => flush (enqueue c w1)
      end
  | _ => w1
  end.

(** *** Programs: state passing over [World] with exceptions *)

Definition Prog (A : Type) : Type := World -> World * result A.

Definition ret {A : Type} (a : A) : Prog A := fun w => (w, Ok a).

Definition throw {A : Type} (e : exn) : Prog A := fun w => (w, Throw e).

Definition bind {A B : Type} (m : Prog A) (k : A -> Prog B) : Prog B :=
  fun w =>
    match m w with
    | (w', Ok a) => k a w'
    | (w', Throw e) => (w', Throw e)
    end.

Definition lift {A : Type} (r : result A) : Prog A := fun w => (w, r).

(** [try { m } catch (err) { h err }]. *)
Definition try_catch {A : Type} (m : Prog A) (h : exn -> Prog A) : Prog A :=
  fun w =>
    match m w with
    | (w', Ok a) => (w', Ok a)
    | (w', Throw e) => h e w'
    end.

Notation "x <- m ;; k" := (bind m (fun x => k))
  (at level 61, m at next level, right associativity).
Notation "m ;;; k" := (bind m (fun _ => k))
  (at level 61, right associativity).

(** *** [fetchMetadata] *)

(** How one call of [fetch] ends: the promise rejects, or it fulfils with a
    response of some HTTP status whose body [res.json()] either rejects on
    ([None]) or parses to a value.  [fetch] fulfils for every status, 4xx and
    5xx included.  No hook is read or written between the two [await]s, so
    both are settled in one event. *)
Inductive FetchOutcome : Type :=
| NetworkError
| Response (status : Z) (json : option value).

Definition default_backend : string := "http://127.0.0.1:8000".

(** [process.env.REACT_APP_BACKEND || "http://127.0.0.1:8000"]: the default
    replaces an unset variable and the empty string. *)
Definition BACKEND (cfg : Config) : string :=
  match REACT_APP_BACKEND cfg with
  | Some s => if String.eqb s "" then default_backend else s
  | None => default_backend
  end.

Definition metadata_url (cfg : Config) : string :=
  BACKEND cfg ++ "/api/radar/metadata/".

(** [5 * 60 * 1000] *)
Definition period : Z := 5 * 60 * 1000.

Definition rbind {A B : Type} (r : result A) (k : A -> result B) : result B :=
  match r with
  | Ok a => k a
  | Throw e => Throw e
  end.

(** [data.bounds[i]] *)
Definition bounds_at (data : value) (i : nat) : result value :=
  rbind (get_prop data "bounds") (fun b => get_index b i).

(** The array literal passed to [setBounds], elements evaluated left to
    right. *)
Definition nested_bounds (data : value) : result value :=
  rbind (bounds_at data 0) (fun b0 =>
  rbind (bounds_at data 1) (fun b1 =>
  rbind (bounds_at data 2) (fun b2 =>
  rbind (bounds_at data 3) (fun b3 =>
  Ok (VArr [VArr [b0; b1]; VArr [b2; b3]]))))).

Section Component.

Variable cfg : Config.

(** A setter call returns normally; an error of the render that follows it
    is the subject of [Faults]. *)
Definition set_state (c : SetterCall) : Prog unit :=
  fun w => (set_state_w (batching cfg) c w, Ok tt).

Definition setRadarUrl (v : value) : Prog unit := set_state (SetRadarUrl v).
Definition setLastUpdated (v : value) : Prog unit := set_state (SetLastUpdated v).
Definition setBounds (v : value) : Prog unit := set_state (SetBounds v).

Definition console_error (e : exn) : Prog unit :=
  fun w => (log_console e w, Ok tt).

(** [await fetch(...)] at the moment the promise settles. *)
Definition await_fetch (o : FetchOutcome) : Prog (Z * option value) :=
  match o with
  | NetworkError => throw NetworkFailure
  | Response status json => ret (status, json)
  end.

(** [await res.json()]; the status of [res] is not consulted. *)
Definition await_json (res : Z * option value) : Prog value :=
  match snd res with
  | Some v => ret v
  | None => throw JsonSyntaxError
  end.

(** The body of the [try] block from the point where [fetch] settles. *)
Definition fetchMetadata_try (o : FetchOutcome) : Prog unit :=
  res <- await_fetch o ;;
  data <- await_json res ;;
  image_url <- lift (get_prop data "image_url") ;;
  setRadarUrl image_url ;;;
  last_updated <- lift (get_prop data "last_updated") ;;
  setLastUpdated last_updated ;;;
  nested <- lift (nested_bounds data) ;;
  setBounds nested.

(** The rest of [fetchMetadata] once its request has settled. *)
Definition fetchMetadata_resume (o : FetchOutcome) : Prog unit :=
  try_catch (fetchMetadata_try o) (fun err => console_error err).

(** The synchronous start of [fetchMetadata]: the request is issued and the
    function suspends at the first [await]. *)
Definition fetchMetadata_start (w : World) : World :=
  with_inflight (S (inflight w)) (log_request (metadata_url cfg) w).

(** *** The event loop *)

(** The timer callback runs [n] times, at [due], [due + period], ... *)
Fixpoint fire (n : nat) (due : Z) (w : World) : World :=
  match n with
  | O => with_interval (Some due) w
  | S k => fire k (due + period) (fetchMetadata_start (with_now due w))
  end.

(** The clock moves on by [dt] and every tick that has become due runs, as
    under a mock timer: no drift, no throttling. *)
Definition advance (dt : Z) (w : World) : World :=
  let t := now w + dt in
  with_now t
    match interval w with
    | Some due =>
        if due <=? t
        then fire (Z.to_nat ((t - due) / period + 1)) due w
        else w
    | None => w
    end.

(** The effect of [useEffect]: [fetchMetadata()] and then [setInterval]. *)
Definition effect_setup (w : World) : World :=
  let w1 := fetchMetadata_start w in
  with_interval (Some (now w1 + period)) w1.

(** The function the effect returns: [clearInterval(interval)]. *)
Definition effect_cleanup (w : World) : World :=
  with_interval None w.

Inductive Event : Type :=
| Mount                          (* first render, then the effect *)
| Unmount                        (* the cleanup, then the instance is gone *)
| Advance (dt : Z)               (* time passes *)
| Complete (o : FetchOutcome).   (* a pending request settles *)

Definition first_render (w : World) : World :=
  mkWorld (now w) Active (hooks w) (pending w) (hooks w :: renders w) (calls w)
          (interval w) (inflight w) (requests w) (console w).

(** One task of the event loop.  Renders happen between tasks, so the queue
    of updates is flushed when a continuation of [fetchMetadata] ends.  The
    render is taken to succeed; [Faults.step_r] adds the render that throws
    and the unmount that follows it. *)
Definition step (w : World) (e : Event) : World :=
  match e with
  | Mount =>
      match phase w with
      | Fresh => effect_setup (first_render w)
      | _ => w
      end
  | Unmount =>
      match phase w with
      | Active => with_phase TornDown (effect_cleanup w)
      | _ => w
      end
  | Advance dt => if dt <? 0 then w else advance dt w
  | Complete o =>
      match inflight w with
      | O => w
      | S n => flush (fst (fetchMetadata_resume o (with_inflight n w)))
      end
  end.

Definition run (w : World) (es : list Event) : World := fold_left step es w.

End Component.

End App.

(** ** Notions used to state the properties *)

Module Spec.
Import JS App.

(** The specification's classification of a fetch failure: network failure,
    non-2xx HTTP response, or JSON parse failure. *)
Definition spec_fetch_failure (o : FetchOutcome) : bool :=
  match o with
  | NetworkError => true
  | Response status json =>
      negb ((200 <=? status) && (status <=? 299))
      || match json with None => true | Some _ => false end
  end.

(** The failures the code itself turns into an exception before any setter
    is reached: [fetch] rejects or [res.json()] rejects. *)
Definition early_failure (o : FetchOutcome) : bool :=
  match o with
  | NetworkError => true
  | Response _ None => true
  | Response _ (Some _) => false
  end.

(** The three values the [try] block hands to the setters when every read
    of the payload goes through. *)
Definition payload_state (data : value) : result DisplayState :=
  rbind (get_prop data "image_url") (fun u =>
  rbind (get_prop data "last_updated") (fun t =>
  rbind (nested_bounds data) (fun b =>
  Ok (mkDisplay u t b)))).

(** The setter calls the [try] block makes, in order, and the exception that
    ends it, if any. *)
Definition try_trace (o : FetchOutcome) : list SetterCall * option exn :=
  match o with
  | NetworkError => ([], Some NetworkFailure)
  | Response _ None => ([], Some JsonSyntaxError)
  | Response _ (Some data) =>
      match get_prop data "image_url" with
      | Throw e => ([], Some e)
      | Ok u =>
          match get_prop data "last_updated" with
          | Throw e => ([SetRadarUrl u], Some e)
          | Ok t =>
              match nested_bounds data with
              | Throw e => ([SetRadarUrl u; SetLastUpdated t], Some e)
              | Ok b => ([SetRadarUrl u; SetLastUpdated t; SetBounds b], None)
              end
          end
      end
  end.

Definition caught (e : option exn) (w : World) : World :=
  match e with
  | Some err => log_console err w
  | None => w
  end.

Definition set_all (p : Policy) (cs : list SetterCall) (w : World) : World :=
  fold_left (fun w' c => set_state_w p c w') cs w.

(** A nested array of two two-element arrays. *)
Definition shape2x2 (v : value) : bool :=
  match v with
  | VArr [VArr [_; _]; VArr [_; _]] => true
  | _ => false
  end.

Definition is_number (v : value) : bool :=
  match v with VNum _ => true | _ => false end.

(** A 2x2 nested array whose four entries are numbers. *)
Definition numeric2x2 (v : value) : bool :=
  match v with
  | VArr [VArr [s; w]; VArr [n; e]] =>
      is_number s && is_number w && is_number n && is_number e
  | _ => false
  end.

(** The setter calls that [fetchMetadata] can make: never [setMetadata], and
    [setBounds] only with a 2x2 nested array. *)
Definition issued (c : SetterCall) : Prop :=
  match c with
  | SetMetadata _ => False
  | SetBounds b => shape2x2 b = true
  | SetRadarUrl _ | SetLastUpdated _ => True
  end.

(** A world all of whose hook snapshots satisfy [P] and whose queued and
    logged setter calls are calls that [fetchMetadata] can make. *)
Definition sound (P : Hooks -> Prop) (w : World) : Prop :=
  P (hooks w) /\ Forall issued (pending w) /\ Forall P (renders w) /\
  Forall (fun pc => issued (snd pc)) (calls w).

(** Events that deliver no parsed payload to the component: everything but
    a settled request whose body parsed as JSON. *)
Definition no_data_yet (e : Event) : bool :=
  match e with
  | Complete o => early_failure o
  | _ => true
  end.

(** Events in which only time passes. *)
Definition is_advance (e : Event) : bool :=
  match e with
  | Advance _ => true
  | _ => false
  end.

(** Every event but the teardown. *)
Definition keeps_mounted (e : Event) : bool :=
  match e with
  | Unmount => false
  | _ => true
  end.

(** The request of tick number [k] of a poller activated at [t0]. *)
Definition tick (cfg : Config) (t0 : Z) (k : nat) : Z * string :=
  (t0 + Z.of_nat k * 300000, metadata_url cfg).

Definition ticks (cfg : Config) (t0 : Z) (n : nat) : list (Z * string) :=
  map (tick cfg t0) (seq 0 n).

(** Example payloads. *)
Definition scenario_payload : value :=
  VObj [("image_url", VStr "http://x/img.png");
        ("last_updated", VStr "2024-01-01T00:00Z");
        ("bounds", VArr [VNum 25.0%float; VNum (-120.0)%float;
                         VNum 50.0%float; VNum (-70.0)%float])].

Definition second_payload : value :=
  VObj [("bounds", VArr [VNum 24.5%float; VNum (-125.0)%float;
                         VNum 49.5%float; VNum (-66.5)%float]);
        ("last_updated", VStr "2024-01-01T00:05Z");
        ("image_url", VStr "http://x/img2.png")].

Definition error_payload : value :=
  VObj [("detail", VStr "Internal Server Error")].

Definition stray_payload : value :=
  VObj [("image_url", VStr "http://x/err.png")].

(** A poller activated at [t0] that has issued [n] requests and waits for
    tick number [n]. *)
Definition polling (cfg : Config) (t0 : Z) (w : World) (n : nat) : Prop :=
  phase w = Active /\ (1 <= n)%nat /\
  requests w = ticks cfg t0 n /\
  interval w = Some (t0 + Z.of_nat n * 300000) /\
  t0 + (Z.of_nat n - 1) * 300000 <= now w < t0 + Z.of_nat n * 300000.

(** A torn-down instance: the timer is cleared and nothing is queued. *)
Definition torn (w : World) : Prop :=
  phase w = TornDown /\ interval w = None /\ pending w = [].

Definition cfg0 : Config := mkConfig None Automatic.
Definition cfg_legacy : Config := mkConfig None Legacy.

End Spec.

(** ** Notions used for the remaining behaviour of the component *)

Module Cover.
Import JS App Spec.

(** [undefined] and [null], the two values a property read throws on. *)
Definition nullish (v : value) : bool :=
  match v with
  | VUndef | VNull => true
  | _ => false
  end.

(** A payload whose [bounds] is an array that starts with four numbers. *)
Definition numeric_bounds_payload (data : value) : bool :=
  match get_prop data "bounds" with
  | Ok (VArr (VNum _ :: VNum _ :: VNum _ :: VNum _ :: _)) => true
  | _ => false
  end.

(** Events under which every parsed payload that reaches the component has
    such a [bounds] array. *)
Definition delivers_numeric_bounds (e : Event) : bool :=
  match e with
  | Complete (Response _ (Some data)) => numeric_bounds_payload data
  | _ => true
  end.


(** A payload with bounds and nothing else. *)
Definition bounds_only_payload : value :=
  VObj [("bounds", VArr [VNum 30.0%float; VNum (-100.0)%float;
                         VNum 40.0%float; VNum (-90.0)%float])].

End Cover.

(** ** Render errors *)

Module Faults.
Import JS App Spec Cover.










End Faults.

Import JS App Spec.
Open Scope list_scope.

(** ** The continuation of [fetchMetadata] *)

Section Resume.

Variable cfg : Config.

Lemma fetchMetadata_resume_trace (o : FetchOutcome) (w : World) :
  fetchMetadata_resume cfg o w =
  (caught (snd (try_trace o)) (set_all (batching cfg) (fst (try_trace o)) w),
   Ok tt).
Proof.
  unfold fetchMetadata_resume, try_catch, fetchMetadata_try, try_trace.
  destruct o as [|status [data|]]; try reflexivity.
  unfold bind, await_fetch, await_json, ret, lift; simpl.
  destruct (get_prop data "image_url") as [u|e]; [|reflexivity].
  unfold setRadarUrl, setLastUpdated, setBounds, set_state; simpl.
  destruct (get_prop data "last_updated") as [t|e]; [|reflexivity].
  destruct (nested_bounds data) as [b|e]; reflexivity.
Qed.

End Resume.

(** ** What setter calls, the handler and the flush leave alone *)

Section Frames.

Variable p : Policy.

Lemma flush_frame (w : World) :
  now (flush w) = now w /\ phase (flush w) = phase w /\
  interval (flush w) = interval w /\ inflight (flush w) = inflight w /\
  requests (flush w) = requests w /\ console (flush w) = console w /\
  calls (flush w) = calls w.
Proof.
  unfold flush. destruct (pending w); simpl; repeat split; reflexivity.
Qed.

Lemma flush_idle (w : World) : pending w = [] -> flush w = w.
Proof. unfold flush. intros ->. reflexivity. Qed.

Lemma pending_flush (w : World) : pending (flush w) = [].
Proof. unfold flush. destruct (pending w) eqn:E; simpl; auto. Qed.

Lemma set_state_w_frame (c : SetterCall) (w : World) :
  now (set_state_w p c w) = now w /\ phase (set_state_w p c w) = phase w /\
  interval (set_state_w p c w) = interval w /\
  inflight (set_state_w p c w) = inflight w /\
  requests (set_state_w p c w) = requests w /\
  console (set_state_w p c w) = console w /\
  calls (set_state_w p c w) = calls w ++ [(phase w, c)].
Proof.
  destruct w as [t ph h q r cl i n rq co]. unfold set_state_w; simpl.
  destruct ph; simpl; try (repeat split; reflexivity).
  destruct p; simpl; try (repeat split; reflexivity).
  unfold flush; simpl.
  destruct (q ++ [c]); simpl; repeat split; reflexivity.
Qed.

Lemma set_all_frame (cs : list SetterCall) (w : World) :
  now (set_all p cs w) = now w /\ phase (set_all p cs w) = phase w /\
  interval (set_all p cs w) = interval w /\
  inflight (set_all p cs w) = inflight w /\
  requests (set_all p cs w) = requests w /\
  console (set_all p cs w) = console w /\
  calls (set_all p cs w) = calls w ++ map (pair (phase w)) cs.
Proof.
  revert w. induction cs as [|c cs IH]; intros w; simpl.
  - rewrite app_nil_r. repeat split; reflexivity.
  - destruct (IH (set_state_w p c w)) as (-> & -> & -> & -> & -> & -> & ->).
    destruct (set_state_w_frame c w) as (-> & -> & -> & -> & -> & -> & ->).
    rewrite <- app_assoc. repeat split; reflexivity.
Qed.

(** A setter call on an instance that is not mounted only leaves a trace in
    the call log. *)
Lemma set_all_unmounted (cs : list SetterCall) (w : World) :
  phase w <> Active ->
  hooks (set_all p cs w) = hooks w /\ pending (set_all p cs w) = pending w /\
  renders (set_all p cs w) = renders w.
Proof.
  revert w. induction cs as [|c cs IH]; intros w Hp; simpl.
  - repeat split; reflexivity.
  - assert (E : set_state_w p c w = log_call c w).
    { unfold set_state_w; simpl. destruct (phase w); congruence. }
    rewrite E. destruct (IH (log_call c w)) as (-> & -> & ->); [exact Hp|].
    repeat split; reflexivity.
Qed.

Lemma caught_frame (e : option exn) (w : World) :
  now (caught e w) = now w /\ phase (caught e w) = phase w /\
  hooks (caught e w) = hooks w /\ pending (caught e w) = pending w /\
  renders (caught e w) = renders w /\ calls (caught e w) = calls w /\
  interval (caught e w) = interval w /\ inflight (caught e w) = inflight w /\
  requests (caught e w) = requests w.
Proof. destruct e; simpl; repeat split; reflexivity. Qed.

End Frames.

(** The world in which a continuation has run to its end and the runtime has
    rendered. *)
Lemma step_complete (cfg : Config) (w : World) (o : FetchOutcome) (n : nat) :
  inflight w = S n ->
  step cfg w (Complete o) =
  flush (caught (snd (try_trace o))
           (set_all (batching cfg) (fst (try_trace o)) (with_inflight n w))).
Proof.
  intros E. unfold step. rewrite E, fetchMetadata_resume_trace. reflexivity.
Qed.

Lemma step_complete_idle (cfg : Config) (w : World) (o : FetchOutcome) :
  inflight w = O -> step cfg w (Complete o) = w.
Proof. intros E. unfold step. rewrite E. reflexivity. Qed.

(** A settled request changes neither the clock, the phase, the timer nor the
    request log. *)
Lemma step_complete_frame (cfg : Config) (w : World) (o : FetchOutcome) :
  now (step cfg w (Complete o)) = now w /\
  phase (step cfg w (Complete o)) = phase w /\
  interval (step cfg w (Complete o)) = interval w /\
  requests (step cfg w (Complete o)) = requests w.
Proof.
  destruct (inflight w) as [|n] eqn:E.
  - rewrite step_complete_idle by exact E. repeat split; reflexivity.
  - rewrite (step_complete cfg w o n E).
    destruct (flush_frame (caught (snd (try_trace o))
      (set_all (batching cfg) (fst (try_trace o)) (with_inflight n w))))
      as (-> & -> & -> & _ & -> & _).
    destruct (caught_frame (snd (try_trace o))
      (set_all (batching cfg) (fst (try_trace o)) (with_inflight n w)))
      as (-> & -> & _ & _ & _ & _ & -> & _ & ->).
    destruct (set_all_frame (batching cfg) (fst (try_trace o)) (with_inflight n w))
      as (-> & -> & -> & _ & -> & _).
    repeat split; reflexivity.
Qed.

(** ** The interval timer *)

Section Timer.

Variable cfg : Config.

Lemma period_ms : period = 300000.
Proof. reflexivity. Qed.

Lemma fire_spec (m : nat) : forall (due : Z) (w : World) (a : nat) (t0 : Z),
  due = t0 + Z.of_nat a * 300000 ->
  requests (fire cfg m due w) = requests w ++ map (tick cfg t0) (seq a m) /\
  interval (fire cfg m due w) = Some (due + Z.of_nat m * 300000) /\
  inflight (fire cfg m due w) = (inflight w + m)%nat /\
  phase (fire cfg m due w) = phase w /\ hooks (fire cfg m due w) = hooks w /\
  pending (fire cfg m due w) = pending w /\
  renders (fire cfg m due w) = renders w /\
  calls (fire cfg m due w) = calls w /\ console (fire cfg m due w) = console w.
Proof.
  induction m as [|m IH]; intros due w a t0 Hdue.
  - simpl. rewrite app_nil_r, Z.add_0_r, Nat.add_0_r. repeat split; reflexivity.
  - cbn [fire seq map].
    destruct (IH (due + period) (fetchMetadata_start cfg (with_now due w))
                 (S a) t0) as (Hr & Hi & Hn & Hp & Hh & Hq & Hs & Hc & Ho).
    { rewrite period_ms. lia. }
    rewrite Hr, Hi, Hn, Hp, Hh, Hq, Hs, Hc, Ho.
    cbn [fetchMetadata_start with_now with_inflight log_request now phase hooks
         pending renders calls interval inflight requests console].
    rewrite <- app_assoc. cbn [app]. unfold tick at 2.
    rewrite <- Hdue, period_ms.
    repeat split; try reflexivity.
    + f_equal. lia.
    + lia.
Qed.


Lemma polling_mount (t0 : Z) :
  polling cfg t0 (step cfg (init_world t0) Mount) 1.
Proof.
  unfold polling; cbn -[Z.mul Z.add Z.sub Z.of_nat period]. rewrite period_ms.
  repeat split; try reflexivity; try lia.
  unfold tick. do 2 f_equal. lia.
Qed.

Lemma polling_advance (t0 dt : Z) (w : World) (n : nat) :
  0 <= dt -> polling cfg t0 w n ->
  exists n', polling cfg t0 (advance cfg dt w) n'.
Proof.
  intros Hdt (Hp & Hn & Hr & Hi & Hlo & Hhi).
  unfold advance. rewrite Hi, period_ms.
  destruct (Z.leb_spec (t0 + Z.of_nat n * 300000) (now w + dt)) as [Hle|Hlt].
  - set (due := t0 + Z.of_nat n * 300000) in *.
    set (q := (now w + dt - due) / 300000).
    assert (Hq : 0 <= q) by (apply Z.div_pos; lia).
    assert (Hdiv : due + q * 300000 <= now w + dt < due + (q + 1) * 300000).
    { pose proof (Z.div_mod (now w + dt - due) 300000 ltac:(lia)) as E.
      pose proof (Z.mod_pos_bound (now w + dt - due) 300000 ltac:(lia)) as B.
      fold q in E. lia. }
    destruct (fire_spec (Z.to_nat (q + 1)) due w n t0 eq_refl)
      as (Fr & Fi & _ & Fp & _).
    exists (n + Z.to_nat (q + 1))%nat. unfold polling.
    cbn [with_now now phase requests interval].
    rewrite Fr, Fi, Fp, Hr. unfold ticks. rewrite seq_app, map_app.
    cbn [Nat.add].
    repeat split; try assumption; try reflexivity; try lia.
    f_equal. unfold due. lia.
  - exists n. unfold polling. cbn [with_now now phase requests interval].
    repeat split; try assumption; lia.
Qed.

Lemma polling_step (t0 : Z) (w : World) (n : nat) (e : Event) :
  keeps_mounted e = true -> polling cfg t0 w n ->
  exists n', polling cfg t0 (step cfg w e) n'.
Proof.
  intros He Hw. destruct e as [| |dt|o]; try discriminate He.
  - exists n. destruct Hw as (Hp & ?). simpl. rewrite Hp.
    unfold polling; auto.
  - simpl. destruct (Z.ltb_spec dt 0).
    + exists n; exact Hw.
    + apply polling_advance with n; assumption.
  - exists n. destruct Hw as (Hp & Hn & Hr & Hi & Hb).
    destruct (step_complete_frame cfg w o) as (En & Ep & Ei & Er).
    unfold polling. rewrite En, Ep, Ei, Er. auto.
Qed.

Lemma polling_run (t0 : Z) (es : list Event) : forall (w : World) (n : nat),
  forallb keeps_mounted es = true -> polling cfg t0 w n ->
  exists n', polling cfg t0 (run cfg w es) n'.
Proof.
  induction es as [|e es IH]; intros w n Hes Hw; simpl.
  - exists n; exact Hw.
  - simpl in Hes. apply andb_prop in Hes as [He Hes].
    destruct (polling_step t0 w n e He Hw) as [n1 H1].
    exact (IH _ n1 Hes H1).
Qed.

(** The number of requests is determined by the time since activation. *)
Lemma polling_count (t0 : Z) (w : World) (n : nat) :
  polling cfg t0 w n -> n = Z.to_nat (1 + (now w - t0) / 300000).
Proof.
  intros (_ & Hn & _ & _ & Hlo & Hhi).
  assert (E : (now w - t0) / 300000 = Z.of_nat n - 1).
  { symmetry. apply Z.div_unique with (now w - t0 - (Z.of_nat n - 1) * 300000); lia. }
  rewrite E. lia.
Qed.

Lemma torn_step (w : World) (e : Event) :
  torn w ->
  torn (step cfg w e) /\ hooks (step cfg w e) = hooks w /\
  renders (step cfg w e) = renders w /\ requests (step cfg w e) = requests w.
Proof.
  intros (Hp & Hi & Hq). destruct e as [| |dt|o].
  - simpl. rewrite Hp. unfold torn; auto.
  - simpl. rewrite Hp. unfold torn; auto.
  - simpl. destruct (dt <? 0); [unfold torn; auto|].
    unfold advance. rewrite Hi. unfold torn; simpl; auto.
  - destruct (inflight w) as [|n] eqn:E.
    + rewrite step_complete_idle by exact E. unfold torn; auto.
    + rewrite (step_complete cfg w o n E).
      set (w1 := set_all (batching cfg) (fst (try_trace o)) (with_inflight n w)).
      assert (Hu : phase (with_inflight n w) <> Active)
        by (simpl; rewrite Hp; discriminate).
      destruct (set_all_unmounted (batching cfg) (fst (try_trace o)) _ Hu)
        as (H1 & H2 & H3).
      destruct (set_all_frame (batching cfg) (fst (try_trace o)) (with_inflight n w))
        as (_ & F2 & F3 & _ & F5 & _).
      destruct (caught_frame (snd (try_trace o)) w1)
        as (_ & C2 & C3 & C4 & C5 & _ & C7 & _ & C9).
      fold w1 in H1, H2, H3, F2, F3, F5.
      assert (Hidle : pending (caught (snd (try_trace o)) w1) = [])
        by (rewrite C4, H2; exact Hq).
      rewrite (flush_idle _ Hidle). unfold torn.
      rewrite C2, C3, C4, C5, C7, C9, F2, F3, F5, H1, H2, H3. simpl. auto.
Qed.

Lemma torn_run (es : list Event) : forall w : World,
  torn w ->
  torn (run cfg w es) /\ hooks (run cfg w es) = hooks w /\
  renders (run cfg w es) = renders w /\ requests (run cfg w es) = requests w.
Proof.
  induction es as [|e es IH]; intros w Hw; simpl.
  - auto.
  - destruct (torn_step w e Hw) as (H1 & Hh & Hr & Hq).
    destruct (IH _ H1) as (H2 & Hh2 & Hr2 & Hq2).
    rewrite Hh2, Hr2, Hq2. auto.
Qed.

Lemma torn_unmount (w : World) :
  phase w = Active -> pending w = [] -> torn (step cfg w Unmount).
Proof. intros Hp Hq. simpl. rewrite Hp. unfold torn; simpl; auto. Qed.

End Timer.

(** ** Invariants of the hook snapshots *)

Lemma nested_bounds_shape (data b : value) :
  nested_bounds data = Ok b -> shape2x2 b = true.
Proof.
  unfold nested_bounds, rbind.
  destruct (bounds_at data 0); [|discriminate].
  destruct (bounds_at data 1); [|discriminate].
  destruct (bounds_at data 2); [|discriminate].
  destruct (bounds_at data 3); [|discriminate].
  intros E. injection E as <-. reflexivity.
Qed.

Lemma try_trace_issued (o : FetchOutcome) : Forall issued (fst (try_trace o)).
Proof.
  unfold try_trace. destruct o as [|status [data|]]; simpl; auto.
  destruct (get_prop data "image_url"); simpl; auto.
  destruct (get_prop data "last_updated"); simpl; [|repeat constructor].
  destruct (nested_bounds data) as [b|e] eqn:E; simpl; repeat constructor.
  exact (nested_bounds_shape data b E).
Qed.

Section HookInvariant.

Variable cfg : Config.
Variable P : Hooks -> Prop.
Hypothesis P_setter : forall h c, P h -> issued c -> P (apply_setter h c).

Lemma fold_setters (cs : list SetterCall) : forall h,
  P h -> Forall issued cs -> P (fold_left apply_setter cs h).
Proof.
  induction cs as [|c cs IH]; intros h Hh Hcs; simpl; [exact Hh|].
  inversion Hcs; subst. apply IH; auto.
Qed.

Lemma sound_flush (w : World) : sound P w -> sound P (flush w).
Proof.
  intros (Hh & Hq & Hr & Hc). unfold flush.
  destruct (pending w) as [|c cs] eqn:E; [unfold sound; rewrite E; auto|].
  unfold sound; simpl.
  assert (Hn : P (fold_left apply_setter cs (apply_setter (hooks w) c)))
    by (apply (fold_setters (c :: cs)); assumption).
  auto.
Qed.

Lemma sound_set_state (c : SetterCall) (w : World) :
  issued c -> sound P w -> sound P (set_state_w (batching cfg) c w).
Proof.
  intros Hc (Hh & Hq & Hr & Hl).
  assert (S1 : sound P (log_call c w)).
  { unfold sound; simpl. repeat split; auto.
    apply Forall_app; split; auto. }
  assert (S2 : sound P (enqueue c (log_call c w))).
  { destruct S1 as (A & B & C & D). unfold sound; simpl. repeat split; auto.
    apply Forall_app; split; auto. }
  unfold set_state_w. cbn [phase log_call].
  destruct (phase w); auto.
  destruct (batching cfg); auto.
  apply sound_flush; exact S2.
Qed.

Lemma sound_set_all (cs : list SetterCall) : forall w,
  Forall issued cs -> sound P w -> sound P (set_all (batching cfg) cs w).
Proof.
  induction cs as [|c cs IH]; intros w Hcs Hw; simpl; [exact Hw|].
  inversion Hcs; subst. apply IH; auto. apply sound_set_state; auto.
Qed.

Lemma sound_step (w : World) (e : Event) : sound P w -> sound P (step cfg w e).
Proof.
  intros Hw. destruct e as [| |dt|o].
  - simpl. destruct (phase w); auto.
    destruct Hw as (Hh & Hq & Hr & Hc). unfold sound; simpl. auto.
  - simpl. destruct (phase w); auto.
  - simpl. destruct (dt <? 0); auto. unfold advance.
    destruct (interval w) as [due|]; auto.
    destruct (due <=? now w + dt); auto.
    destruct (fire_spec cfg (Z.to_nat ((now w + dt - due) / period + 1))
                due w 0 due ltac:(lia))
      as (_ & _ & _ & _ & Fh & Fq & Fr & Fc & _).
    unfold sound. cbn [with_now hooks pending renders calls].
    rewrite Fh, Fq, Fr, Fc. exact Hw.
  - destruct (inflight w) as [|n] eqn:E.
    + rewrite step_complete_idle by exact E. exact Hw.
    + rewrite (step_complete cfg w o n E). apply sound_flush.
      assert (S1 : sound P (set_all (batching cfg) (fst (try_trace o))
                              (with_inflight n w))).
      { apply sound_set_all; [apply try_trace_issued | exact Hw]. }
      destruct (snd (try_trace o)); exact S1.
Qed.

Lemma sound_run (es : list Event) : forall w,
  sound P w -> sound P (run cfg w es).
Proof.
  induction es as [|e es IH]; intros w Hw; simpl; [exact Hw|].
  apply IH, sound_step, Hw.
Qed.

Lemma sound_init (t0 : Z) : P initial_hooks -> sound P (init_world t0).
Proof. intros H. unfold sound; simpl. auto. Qed.

End HookInvariant.

(** Between two tasks of the event loop no update is queued. *)
Lemma idle_step (cfg : Config) (w : World) (e : Event) :
  pending w = [] -> pending (step cfg w e) = [].
Proof.
  intros Hq. destruct e as [| |dt|o].
  - simpl. destruct (phase w); auto.
  - simpl. destruct (phase w); auto.
  - simpl. destruct (dt <? 0); auto. unfold advance.
    destruct (interval w) as [due|]; auto.
    destruct (due <=? now w + dt); auto.
    destruct (fire_spec cfg (Z.to_nat ((now w + dt - due) / period + 1))
                due w 0 due ltac:(lia))
      as (_ & _ & _ & _ & _ & Fq & _).
    cbn [with_now pending]. rewrite Fq. exact Hq.
  - destruct (inflight w) as [|n] eqn:E.
    + rewrite step_complete_idle by exact E. exact Hq.
    + rewrite (step_complete cfg w o n E). apply pending_flush.
Qed.


(** ** Settled requests *)

Lemma payload_trace (status : Z) (data : value) (d : DisplayState) :
  payload_state data = Ok d ->
  try_trace (Response status (Some data)) =
  ([SetRadarUrl (ds_radarUrl d); SetLastUpdated (ds_lastUpdated d);
    SetBounds (ds_bounds d)], None).
Proof.
  unfold payload_state, try_trace, rbind.
  destruct (get_prop data "image_url") as [u|]; [|discriminate].
  destruct (get_prop data "last_updated") as [t|]; [|discriminate].
  destruct (nested_bounds data) as [b|]; [|discriminate].
  intros E. injection E as <-. reflexivity.
Qed.

(** The [try] block runs to its end exactly on the responses whose payload
    can be read in full. *)
Lemma try_completes_iff (cfg : Config) (o : FetchOutcome) (w : World) :
  snd (fetchMetadata_try cfg o w) = Ok tt <->
  exists status data d, o = Response status (Some data) /\ payload_state data = Ok d.
Proof.
  split.
  - unfold fetchMetadata_try, bind, await_fetch, await_json, ret, throw, lift,
      setRadarUrl, setLastUpdated, setBounds, set_state.
    destruct o as [|status [data|]]; cbn [snd fst]; try discriminate.
    destruct (get_prop data "image_url") as [u|e] eqn:E1; [|discriminate].
    destruct (get_prop data "last_updated") as [t|e] eqn:E2; [|discriminate].
    destruct (nested_bounds data) as [b|e] eqn:E3; [|discriminate].
    intros _. exists status, data, (mkDisplay u t b). split; [reflexivity|].
    unfold payload_state, rbind. rewrite E1, E2, E3. reflexivity.
  - intros (status & data & d & -> & Hd).
    unfold payload_state, rbind in Hd.
    unfold fetchMetadata_try, bind, await_fetch, await_json, ret, throw, lift,
      setRadarUrl, setLastUpdated, setBounds, set_state. cbn [snd fst].
    destruct (get_prop data "image_url") as [u|e]; [|discriminate].
    destruct (get_prop data "last_updated") as [t|e]; [|discriminate].
    destruct (nested_bounds data) as [b|e]; [|discriminate].
    reflexivity.
Qed.

(** A request that failed before any setter was reached leaves the hooks and
    the rendered snapshots as they were. *)
Lemma complete_early_failure (cfg : Config) (w : World) (o : FetchOutcome) :
  pending w = [] -> early_failure o = true ->
  hooks (step cfg w (Complete o)) = hooks w /\
  renders (step cfg w (Complete o)) = renders w /\
  calls (step cfg w (Complete o)) = calls w.
Proof.
  intros Hq Ho. destruct (inflight w) as [|n] eqn:E.
  - rewrite step_complete_idle by exact E. auto.
  - rewrite (step_complete cfg w o n E).
    assert (T : exists e, try_trace o = ([], Some e)).
    { destruct o as [|status [data|]]; try discriminate Ho; simpl; eauto. }
    destruct T as [e ->]. cbn [fst snd set_all fold_left caught].
    rewrite flush_idle by exact Hq. auto.
Qed.

(** A request whose payload was read in full replaces the three display
    fields; with automatic batching the consumers get one new snapshot. *)
Lemma complete_success (cfg : Config) (w : World) (n : nat) (status : Z)
      (data : value) (d : DisplayState) :
  phase w = Active -> inflight w = S n -> pending w = [] ->
  payload_state data = Ok d ->
  hooks (step cfg w (Complete (Response status (Some data)))) =
    mkHooks (metadata (hooks w)) (ds_radarUrl d) (ds_lastUpdated d) (ds_bounds d) /\
  (batching cfg = Automatic ->
   renders (step cfg w (Complete (Response status (Some data)))) =
     mkHooks (metadata (hooks w)) (ds_radarUrl d) (ds_lastUpdated d) (ds_bounds d)
     :: renders w).
Proof.
  intros Hp Hn Hq Hd.
  rewrite (step_complete cfg w _ n Hn), (payload_trace status data d Hd).
  destruct w as [t ph h q r cl i m rq co]. cbn [phase pending] in Hp, Hq. subst ph q.
  destruct (batching cfg); split; try reflexivity; discriminate.
Qed.

(** Events other than a settled request do not touch the hooks. *)
Lemma step_other_frame (cfg : Config) (w : World) (e : Event) :
  (forall o, e <> Complete o) ->
  hooks (step cfg w e) = hooks w /\ pending (step cfg w e) = pending w /\
  calls (step cfg w e) = calls w /\
  (renders (step cfg w e) = renders w \/
   renders (step cfg w e) = hooks w :: renders w).
Proof.
  intros He. destruct e as [| |dt|o]; [| | |destruct (He o eq_refl)].
  - simpl. destruct (phase w); simpl; auto.
  - simpl. destruct (phase w); simpl; auto.
  - simpl. destruct (dt <? 0); auto. unfold advance.
    destruct (interval w) as [due|]; auto.
    destruct (due <=? now w + dt); auto.
    destruct (fire_spec cfg (Z.to_nat ((now w + dt - due) / period + 1))
                due w 0 due ltac:(lia))
      as (_ & _ & _ & _ & Fh & Fq & Fr & Fc & _).
    cbn [with_now hooks pending renders calls]. rewrite Fh, Fq, Fr, Fc. auto.
Qed.

Lemma advance_frame (cfg : Config) (w : World) (dt : Z) :
  phase (step cfg w (Advance dt)) = phase w /\
  (inflight w <= inflight (step cfg w (Advance dt)))%nat.
Proof.
  simpl. destruct (dt <? 0); auto. unfold advance.
  destruct (interval w) as [due|]; auto.
  destruct (due <=? now w + dt); auto.
  destruct (fire_spec cfg (Z.to_nat ((now w + dt - due) / period + 1))
              due w 0 due ltac:(lia))
    as (_ & _ & Fn & Fp & _).
  cbn [with_now phase inflight]. rewrite Fn, Fp. split; [reflexivity | lia].
Qed.

Lemma advances_frame (cfg : Config) (es : list Event) : forall w,
  forallb is_advance es = true ->
  phase (run cfg w es) = phase w /\ hooks (run cfg w es) = hooks w /\
  pending (run cfg w es) = pending w.
Proof.
  induction es as [|e es IH]; intros w Hes; simpl; auto.
  simpl in Hes. apply andb_prop in Hes as [He Hes].
  destruct e as [| |dt|o]; try discriminate He.
  destruct (IH (step cfg w (Advance dt)) Hes) as (-> & -> & ->).
  destruct (advance_frame cfg w dt) as (-> & _).
  destruct (step_other_frame cfg w (Advance dt)) as (-> & -> & _);
    [discriminate | auto].
Qed.

(** ** Properties of [refresh] *)

(** C1, as the code has it: when [fetch] rejects (network failure) or
    [res.json()] rejects (the body is not JSON, whatever the HTTP status), the
    three display fields after the call equal the fields before it, and no
    new snapshot is rendered.  The status of the response is never read, so a
    non-2xx response whose body parses is not covered. *)
Theorem refresh_early_failure_keeps_display_state
        (cfg : Config) (w : World) (o : FetchOutcome) :
  pending w = [] -> early_failure o = true ->
  displayState (hooks (step cfg w (Complete o))) = displayState (hooks w) /\
  renders (step cfg w (Complete o)) = renders w.
Proof.
  intros Hq Ho.
  destruct (complete_early_failure cfg w o Hq Ho) as (-> & -> & _).
  split; reflexivity.
Qed.

Lemma refresh_early_failure_witness :
  displayState (hooks (step cfg0 (step cfg0 (init_world 0) Mount)
                            (Complete (Response 500 None)))) =
  displayState (hooks (step cfg0 (init_world 0) Mount)) /\
  renders (step cfg0 (step cfg0 (init_world 0) Mount)
                (Complete (Response 500 None))) =
  renders (step cfg0 (init_world 0) Mount).
Proof.
  apply (refresh_early_failure_keeps_display_state
           cfg0 (step cfg0 (init_world 0) Mount) (Response 500 None));
    reflexivity.
Defined.

(** C1 as stated fails: an HTTP 500 whose body is the JSON object
    [{"detail": "Internal Server Error"}] is a fetch failure in the
    specification's sense, yet after a good fetch it overwrites [radarUrl]
    and [lastUpdated] with [undefined] and keeps the old [bounds]. *)
Lemma refresh_non2xx_json_changes_display_state :
  let before := run cfg0 (init_world 0)
                  [Mount; Complete (Response 200 (Some scenario_payload));
                   Advance 300000] in
  let o := Response 500 (Some error_payload) in
  pending before = [] /\ spec_fetch_failure o = true /\
  displayState (hooks (step cfg0 before (Complete o))) =
    mkDisplay VUndef VUndef (ds_bounds (displayState (hooks before))) /\
  displayState (hooks (step cfg0 before (Complete o))) <>
    displayState (hooks before).
Proof.
  vm_compute. repeat split; discriminate.
Qed.

(** C2, as the code has it: when the runtime batches the updates of one task,
    a call of [refresh] whose [try] block runs to its end hands the consumers
    exactly one new snapshot, and in it [radarUrl], [lastUpdated] and [bounds]
    all carry the values read from the payload; no snapshot with only some of
    them replaced is rendered. *)
Theorem refresh_success_single_transition
        (cfg : Config) (w : World) (n : nat) (o : FetchOutcome) :
  batching cfg = Automatic ->
  phase w = Active -> inflight w = S n -> pending w = [] ->
  snd (fetchMetadata_try cfg o (with_inflight n w)) = Ok tt ->
  exists status data u t b,
    o = Response status (Some data) /\
    get_prop data "image_url" = Ok u /\
    get_prop data "last_updated" = Ok t /\
    nested_bounds data = Ok b /\
    renders (step cfg w (Complete o)) =
      mkHooks (metadata (hooks w)) u t b :: renders w /\
    hooks (step cfg w (Complete o)) = mkHooks (metadata (hooks w)) u t b.
Proof.
  intros Hb Hp Hn Hq Hok.
  apply try_completes_iff in Hok as (status & data & d & -> & Hd).
  destruct (complete_success cfg w n status data d Hp Hn Hq Hd) as (Hh & Hr).
  exists status, data, (ds_radarUrl d), (ds_lastUpdated d), (ds_bounds d).
  unfold payload_state, rbind in Hd.
  destruct (get_prop data "image_url") as [u|]; [|discriminate].
  destruct (get_prop data "last_updated") as [t|]; [|discriminate].
  destruct (nested_bounds data) as [b|]; [|discriminate].
  injection Hd as <-. cbn [ds_radarUrl ds_lastUpdated ds_bounds] in *.
  repeat split; auto.
Qed.

Lemma refresh_success_single_transition_witness :
  exists status data u t b,
    Response 200 (Some scenario_payload) = Response status (Some data) /\
    get_prop data "image_url" = Ok u /\
    get_prop data "last_updated" = Ok t /\
    nested_bounds data = Ok b /\
    renders (step cfg0 (step cfg0 (init_world 0) Mount)
                  (Complete (Response 200 (Some scenario_payload)))) =
      mkHooks (metadata (hooks (step cfg0 (init_world 0) Mount))) u t b
      :: renders (step cfg0 (init_world 0) Mount) /\
    hooks (step cfg0 (step cfg0 (init_world 0) Mount)
                (Complete (Response 200 (Some scenario_payload)))) =
      mkHooks (metadata (hooks (step cfg0 (init_world 0) Mount))) u t b.
Proof.
  apply (refresh_success_single_transition
           cfg0 (step cfg0 (init_world 0) Mount) 0
           (Response 200 (Some scenario_payload)));
    reflexivity.
Defined.

(** C2 as stated fails: the three fields are assigned by three separate
    setter calls, so a runtime that commits every call synchronously renders
    them one by one.  After the initial snapshot the consumers see the new
    [radarUrl] with the old [lastUpdated] and [bounds], then the new
    [lastUpdated] with the old [bounds], and only then all three. *)
Lemma unbatched_setters_render_partial_states :
  renders (run cfg_legacy (init_world 0)
             [Mount; Complete (Response 200 (Some scenario_payload))]) =
  [ mkHooks VNull (VStr "http://x/img.png") (VStr "2024-01-01T00:00Z")
      (VArr [VArr [VNum 25.0%float; VNum (-120.0)%float];
             VArr [VNum 50.0%float; VNum (-70.0)%float]]);
    mkHooks VNull (VStr "http://x/img.png") (VStr "2024-01-01T00:00Z")
      default_bounds;
    mkHooks VNull (VStr "http://x/img.png") VNull default_bounds;
    initial_hooks ].
Proof. vm_compute. reflexivity. Qed.

(** C3: a payload whose [bounds] is the flat array [[s, w, n, e]] stores
    [[[s, w], [n, e]]], the elements in their original order, next to its
    [image_url] and [last_updated]; the payload of the scenario yields the
    display state of the scenario. *)
Theorem bounds_nested_in_order :
  (forall (cfg : Config) (w : World) (k : nat) (status : Z)
          (data u t s w_ n e : value),
      phase w = Active -> inflight w = S k -> pending w = [] ->
      get_prop data "image_url" = Ok u ->
      get_prop data "last_updated" = Ok t ->
      get_prop data "bounds" = Ok (VArr [s; w_; n; e]) ->
      nested_bounds data = Ok (VArr [VArr [s; w_]; VArr [n; e]]) /\
      displayState (hooks (step cfg w (Complete (Response status (Some data))))) =
        mkDisplay u t (VArr [VArr [s; w_]; VArr [n; e]])) /\
  (forall (cfg : Config) (t0 : Z),
      displayState
        (hooks (run cfg (init_world t0)
                  [Mount; Complete (Response 200 (Some scenario_payload))])) =
      mkDisplay (VStr "http://x/img.png") (VStr "2024-01-01T00:00Z")
        (VArr [VArr [VNum 25.0%float; VNum (-120.0)%float];
               VArr [VNum 50.0%float; VNum (-70.0)%float]])).
Proof.
  assert (G : forall (cfg : Config) (w : World) (k : nat) (status : Z)
          (data u t s w_ n e : value),
      phase w = Active -> inflight w = S k -> pending w = [] ->
      get_prop data "image_url" = Ok u ->
      get_prop data "last_updated" = Ok t ->
      get_prop data "bounds" = Ok (VArr [s; w_; n; e]) ->
      nested_bounds data = Ok (VArr [VArr [s; w_]; VArr [n; e]]) /\
      displayState (hooks (step cfg w (Complete (Response status (Some data))))) =
        mkDisplay u t (VArr [VArr [s; w_]; VArr [n; e]])).
  { intros cfg w k status data u t s w_ n e Hp Hn Hq Hu Ht Hb.
    assert (Hnb : nested_bounds data = Ok (VArr [VArr [s; w_]; VArr [n; e]])).
    { unfold nested_bounds, bounds_at, rbind. rewrite Hb. reflexivity. }
    split; [exact Hnb|].
    assert (Hd : payload_state data =
                 Ok (mkDisplay u t (VArr [VArr [s; w_]; VArr [n; e]]))).
    { unfold payload_state, rbind. rewrite Hu, Ht, Hnb. reflexivity. }
    destruct (complete_success cfg w k status data _ Hp Hn Hq Hd) as (-> & _).
    reflexivity. }
  split; [exact G|].
  intros cfg t0.
  refine (proj2 (G cfg (step cfg (init_world t0) Mount) 0%nat 200 scenario_payload
                   _ _ _ _ _ _ _ _ _ _ _ _));
    reflexivity.
Qed.

Lemma bounds_nested_in_order_witness :
  displayState
    (hooks (step cfg0 (step cfg0 (init_world 0) Mount)
              (Complete (Response 200 (Some second_payload))))) =
  mkDisplay (VStr "http://x/img2.png") (VStr "2024-01-01T00:05Z")
    (VArr [VArr [VNum 24.5%float; VNum (-125.0)%float];
           VArr [VNum 49.5%float; VNum (-66.5)%float]]).
Proof.
  apply (proj1 bounds_nested_in_order
           cfg0 (step cfg0 (init_world 0) Mount) 0%nat 200 second_payload);
    reflexivity.
Defined.

(** ** Initial state and invariants *)

Lemma no_data_step (cfg : Config) (w : World) (e : Event) :
  pending w = [] -> no_data_yet e = true ->
  hooks (step cfg w e) = hooks w /\ pending (step cfg w e) = [] /\
  (renders (step cfg w e) = renders w \/
   renders (step cfg w e) = hooks w :: renders w).
Proof.
  intros Hq He. split; [|split; [apply idle_step; exact Hq|]].
  - destruct e as [| |dt|o];
      try (apply step_other_frame; discriminate).
    apply complete_early_failure; assumption.
  - destruct e as [| |dt|o];
      try (apply step_other_frame; discriminate).
    left. apply complete_early_failure; assumption.
Qed.

(** C4, as the code has it: until a response whose body parses as JSON has
    arrived (at the start, and after any number of rejected fetches and
    unparseable bodies), [bounds] is the default [[20,-130],[55,-60]],
    [radarUrl] and [lastUpdated] are [null], every snapshot rendered so far is
    the initial one, and the overlay slot holds [null], so no [ImageOverlay]
    receives a URL. *)
Theorem initial_display_until_first_payload
        (cfg : Config) (t0 : Z) (es : list Event) :
  forallb no_data_yet es = true ->
  displayState (hooks (run cfg (init_world t0) es)) =
    mkDisplay VNull VNull
      (VArr [VArr [VNum 20.0%float; VNum (-130.0)%float];
             VArr [VNum 55.0%float; VNum (-60.0)%float]]) /\
  Forall (fun h => h = initial_hooks) (renders (run cfg (init_world t0) es)) /\
  image_overlay (render (hooks (run cfg (init_world t0) es))) = Skipped VNull.
Proof.
  intros Hes.
  assert (G : forall w, hooks w = initial_hooks -> pending w = [] ->
              Forall (fun h => h = initial_hooks) (renders w) ->
              hooks (run cfg w es) = initial_hooks /\
              Forall (fun h => h = initial_hooks) (renders (run cfg w es))).
  { induction es as [|e es IH]; intros w Hh Hq Hr; simpl; [auto|].
    simpl in Hes. apply andb_prop in Hes as [He Hes].
    destruct (no_data_step cfg w e Hq He) as (Eh & Eq & Er).
    apply (IH Hes).
    - rewrite Eh; exact Hh.
    - exact Eq.
    - destruct Er as [-> | ->]; auto. }
  destruct (G (init_world t0) eq_refl eq_refl (Forall_nil _)) as (Hh & Hr).
  rewrite Hh. repeat split; auto.
Qed.

Lemma initial_display_until_first_payload_witness :
  displayState
    (hooks (run cfg0 (init_world 0)
              [Mount; Complete NetworkError; Advance 300000;
               Complete (Response 502 None)])) =
    mkDisplay VNull VNull
      (VArr [VArr [VNum 20.0%float; VNum (-130.0)%float];
             VArr [VNum 55.0%float; VNum (-60.0)%float]]) /\
  Forall (fun h => h = initial_hooks)
    (renders (run cfg0 (init_world 0)
                [Mount; Complete NetworkError; Advance 300000;
                 Complete (Response 502 None)])) /\
  image_overlay
    (render (hooks (run cfg0 (init_world 0)
                      [Mount; Complete NetworkError; Advance 300000;
                       Complete (Response 502 None)]))) = Skipped VNull.
Proof.
  apply (initial_display_until_first_payload cfg0 0
           [Mount; Complete NetworkError; Advance 300000;
            Complete (Response 502 None)]).
  reflexivity.
Defined.

(** C4 as stated fails: the first request is answered by an HTTP 500 whose
    JSON body carries an [image_url] and no [bounds].  No fetch has succeeded
    (non-2xx, and the [try] block ends in the handler), yet [radarUrl] is set
    and the overlay is drawn with that URL over the default bounds. *)
Lemma overlay_before_any_successful_fetch :
  let o := Response 500 (Some stray_payload) in
  let w := run cfg0 (init_world 0) [Mount; Complete o] in
  spec_fetch_failure o = true /\
  snd (fetchMetadata_try cfg0 o (init_world 0)) <> Ok tt /\
  console w = [TypeError "Cannot read properties of undefined (reading '0')"] /\
  radarUrl (hooks w) = VStr "http://x/err.png" /\
  image_overlay (render (hooks w)) =
    Rendered (mkOverlay (VStr "http://x/err.png") default_bounds 0.7%float).
Proof.
  vm_compute. repeat split; discriminate.
Qed.



(** C10: [metadata] is [null] in every reachable state and in every rendered
    snapshot, and [setMetadata] is never called. *)
Theorem metadata_never_written (cfg : Config) (t0 : Z) (es : list Event) :
  metadata initial_hooks = VNull /\
  metadata (hooks (run cfg (init_world t0) es)) = VNull /\
  Forall (fun h => metadata h = VNull) (renders (run cfg (init_world t0) es)) /\
  (forall ph v, ~ In (ph, SetMetadata v) (calls (run cfg (init_world t0) es))).
Proof.
  assert (S : sound (fun h => metadata h = VNull) (run cfg (init_world t0) es)).
  { apply sound_run.
    - intros h c Hh Hc. destruct c; simpl in *; [contradiction | auto ..].
    - apply sound_init. reflexivity. }
  destruct S as (Hh & _ & Hr & Hc). repeat split; auto.
  intros ph v Hin. rewrite Forall_forall in Hc. exact (Hc _ Hin).
Qed.

(** ** Lifecycle *)

(** C6: once the cleanup has run, no event changes [radarUrl], [lastUpdated]
    or [bounds] any more, no further snapshot is rendered and no further
    request is issued, whatever happens afterwards.  A request that was in
    flight may still settle; the setter calls of its continuation assign
    nothing, because the runtime drops updates addressed to an instance that
    is no longer mounted. *)
Theorem teardown_freezes_state_but_setters_are_called
        (cfg : Config) (w : World) (es : list Event) :
  phase w = Active -> pending w = [] ->
  (hooks (run cfg (step cfg w Unmount) es) = hooks w /\
   renders (run cfg (step cfg w Unmount) es) = renders w /\
   requests (run cfg (step cfg w Unmount) es) = requests w) /\
  (forall (k : nat) (status : Z) (data : value) (d : DisplayState),
      inflight w = S k -> payload_state data = Ok d ->
      calls (step cfg (step cfg w Unmount)
                  (Complete (Response status (Some data)))) =
      calls w ++ [(TornDown, SetRadarUrl (ds_radarUrl d));
                  (TornDown, SetLastUpdated (ds_lastUpdated d));
                  (TornDown, SetBounds (ds_bounds d))]).
Proof.
  intros Hp Hq. split.
  - destruct (torn_run cfg es (step cfg w Unmount) (torn_unmount cfg w Hp Hq))
      as (_ & -> & -> & ->).
    simpl. rewrite Hp. repeat split; reflexivity.
  - intros k status data d Hn Hd.
    assert (E : inflight (step cfg w Unmount) = S k)
      by (simpl; rewrite Hp; exact Hn).
    rewrite (step_complete cfg _ _ k E), (payload_trace status data d Hd).
    cbn [fst snd caught].
    match goal with
    | |- calls (flush ?x) = _ =>
        destruct (flush_frame x) as (_ & _ & _ & _ & _ & _ & ->)
    end.
    match goal with
    | |- calls (set_all ?p ?cs ?x) = _ =>
        destruct (set_all_frame p cs x) as (_ & _ & _ & _ & _ & _ & ->)
    end.
    simpl. rewrite Hp. reflexivity.
Qed.

Lemma teardown_freezes_state_witness :
  hooks (run cfg0 (step cfg0 (step cfg0 (init_world 0) Mount) Unmount)
           [Complete (Response 200 (Some scenario_payload)); Advance 900000]) =
    hooks (step cfg0 (init_world 0) Mount) /\
  renders (run cfg0 (step cfg0 (step cfg0 (init_world 0) Mount) Unmount)
             [Complete (Response 200 (Some scenario_payload)); Advance 900000]) =
    renders (step cfg0 (init_world 0) Mount) /\
  requests (run cfg0 (step cfg0 (step cfg0 (init_world 0) Mount) Unmount)
              [Complete (Response 200 (Some scenario_payload)); Advance 900000]) =
    requests (step cfg0 (init_world 0) Mount).
Proof.
  apply (proj1 (teardown_freezes_state_but_setters_are_called
                  cfg0 (step cfg0 (init_world 0) Mount)
                  [Complete (Response 200 (Some scenario_payload));
                   Advance 900000]
                  eq_refl eq_refl)).
Defined.

(** The view is torn down while the first request is in flight: the
    continuation still runs and calls the three setters, and the hooks stay
    at their initial values. *)
Lemma setters_called_after_teardown :
  calls (run cfg0 (init_world 0)
           [Mount; Unmount; Complete (Response 200 (Some scenario_payload))]) =
  [(TornDown, SetRadarUrl (VStr "http://x/img.png"));
   (TornDown, SetLastUpdated (VStr "2024-01-01T00:00Z"));
   (TornDown, SetBounds (VArr [VArr [VNum 25.0%float; VNum (-120.0)%float];
                               VArr [VNum 50.0%float; VNum (-70.0)%float]]))] /\
  hooks (run cfg0 (init_world 0)
           [Mount; Unmount; Complete (Response 200 (Some scenario_payload))]) =
  initial_hooks.
Proof. vm_compute. split; reflexivity. Qed.




(** C9: after two successful fetches, with any amount of time passing in
    between, the display state is the one read from the second payload
    alone; nothing of the first payload or of any earlier state is left in
    it. *)
Theorem second_fetch_replaces_first
        (cfg : Config) (w : World) (k : nat) (es : list Event)
        (status1 status2 : Z) (data1 data2 : value) (d1 d2 : DisplayState) :
  phase w = Active -> inflight w = S k -> pending w = [] ->
  payload_state data1 = Ok d1 -> payload_state data2 = Ok d2 ->
  forallb is_advance es = true ->
  inflight (run cfg (step cfg w (Complete (Response status1 (Some data1)))) es)
    <> O ->
  displayState (hooks (step cfg w (Complete (Response status1 (Some data1))))) = d1 /\
  displayState
    (hooks (step cfg
              (run cfg (step cfg w (Complete (Response status1 (Some data1)))) es)
              (Complete (Response status2 (Some data2))))) = d2.
Proof.
  intros Hp Hn Hq H1 H2 Hes Hfl.
  destruct (complete_success cfg w k status1 data1 d1 Hp Hn Hq H1) as (Hh1 & _).
  destruct (step_complete_frame cfg w (Response status1 (Some data1)))
    as (_ & Ep & _).
  pose proof (idle_step cfg w (Complete (Response status1 (Some data1))) Hq) as Eq1.
  set (w1 := step cfg w (Complete (Response status1 (Some data1)))) in *.
  destruct (advances_frame cfg es w1 Hes) as (Fp & Fh & Fq).
  set (w2 := run cfg w1 es) in *.
  split.
  - rewrite Hh1. destruct d1; reflexivity.
  - destruct (inflight w2) as [|m] eqn:Em; [congruence|].
    destruct (complete_success cfg w2 m status2 data2 d2) as (Hh2 & _); auto.
    + rewrite Fp, Ep; exact Hp.
    + rewrite Fq; exact Eq1.
    + rewrite Hh2. destruct d2; reflexivity.
Qed.

Lemma second_fetch_replaces_first_witness :
  displayState
    (hooks (step cfg0
              (run cfg0
                 (step cfg0 (step cfg0 (init_world 0) Mount)
                       (Complete (Response 200 (Some scenario_payload))))
                 [Advance 300000])
              (Complete (Response 200 (Some second_payload))))) =
  mkDisplay (VStr "http://x/img2.png") (VStr "2024-01-01T00:05Z")
    (VArr [VArr [VNum 24.5%float; VNum (-125.0)%float];
           VArr [VNum 49.5%float; VNum (-66.5)%float]]).
Proof.
  refine (proj2 (second_fetch_replaces_first
           cfg0 (step cfg0 (init_world 0) Mount) 0%nat [Advance 300000]
           200 200 scenario_payload second_payload
           (mkDisplay (VStr "http://x/img.png") (VStr "2024-01-01T00:00Z")
              (VArr [VArr [VNum 25.0%float; VNum (-120.0)%float];
                     VArr [VNum 50.0%float; VNum (-70.0)%float]]))
           (mkDisplay (VStr "http://x/img2.png") (VStr "2024-01-01T00:05Z")
              (VArr [VArr [VNum 24.5%float; VNum (-125.0)%float];
                     VArr [VNum 49.5%float; VNum (-66.5)%float]]))
           _ _ _ _ _ _ _));
    vm_compute; solve [reflexivity | discriminate].
Defined.

(** ** Further behaviour of [fetchMetadata] *)

Import Cover.


Lemma try_trace_status (s1 s2 : Z) (json : option value) :
  try_trace (Response s1 json) = try_trace (Response s2 json).
Proof. destruct json; reflexivity. Qed.





Lemma console_complete (cfg : Config) (w : World) (o : FetchOutcome) (n : nat) :
  inflight w = S n ->
  console (step cfg w (Complete o)) =
  console w ++ match snd (try_trace o) with Some e => [e] | None => [] end.
Proof.
  intros E. rewrite (step_complete cfg w o n E).
  match goal with
  | |- console (flush ?x) = _ =>
      destruct (flush_frame x) as (_ & _ & _ & _ & _ & -> & _)
  end.
  destruct (set_all_frame (batching cfg) (fst (try_trace o)) (with_inflight n w))
    as (_ & _ & _ & _ & _ & Hc & _).
  destruct (snd (try_trace o)); cbn [caught log_console console].
  - rewrite Hc. reflexivity.
  - rewrite Hc, app_nil_r. reflexivity.
Qed.

(** X1: the HTTP status of a response plays no part: two responses with the same
    body, or both without a parseable body, leave the component and its
    surroundings in the same state whatever their status codes. *)
Theorem status_is_ignored
        (cfg : Config) (w : World) (s1 s2 : Z) (json : option value) :
  step cfg w (Complete (Response s1 json)) =
  step cfg w (Complete (Response s2 json)).
Proof.
  destruct (inflight w) as [|n] eqn:E.
  - rewrite !step_complete_idle by exact E. reflexivity.
  - rewrite !(step_complete cfg w _ n E), (try_trace_status s1 s2 json).
    reflexivity.
Qed.



(** *** Which payloads the [try] block gets through *)

Lemma get_prop_total (data : value) (name : string) :
  nullish data = false -> exists v, get_prop data name = Ok v.
Proof. destruct data; try discriminate; intros _; simpl; eauto. Qed.

Lemma get_prop_nullish (data : value) (name : string) :
  nullish data = true -> exists msg, get_prop data name = Throw (TypeError msg).
Proof. destruct data; try discriminate; intros _; simpl; eauto. Qed.

Lemma get_index_total (b : value) (i : nat) :
  nullish b = false -> exists v, get_index b i = Ok v.
Proof. destruct b; try discriminate; intros _; simpl; eauto. Qed.

Lemma get_index_nullish (b : value) (i : nat) :
  nullish b = true -> exists msg, get_index b i = Throw (TypeError msg).
Proof. destruct b; try discriminate; intros _; simpl; eauto. Qed.

Lemma nested_bounds_total (data b : value) :
  get_prop data "bounds" = Ok b -> nullish b = false ->
  exists v, nested_bounds data = Ok v.
Proof.
  intros Hb Hn. unfold nested_bounds, bounds_at, rbind. rewrite Hb.
  destruct (get_index_total b 0 Hn) as [b0 ->].
  destruct (get_index_total b 1 Hn) as [b1 ->].
  destruct (get_index_total b 2 Hn) as [b2 ->].
  destruct (get_index_total b 3 Hn) as [b3 ->].
  eauto.
Qed.

Lemma nested_bounds_nullish (data b : value) :
  get_prop data "bounds" = Ok b -> nullish b = true ->
  exists msg, nested_bounds data = Throw (TypeError msg).
Proof.
  intros Hb Hn. unfold nested_bounds, bounds_at, rbind. rewrite Hb.
  destruct (get_index_nullish b 0 Hn) as [msg ->]. eauto.
Qed.

(** X3: when the runtime batches the updates of one task, so that no render
    runs inside the [try] block, the block completes exactly when the body
    parsed to a value other than [null] whose [bounds] is neither missing
    nor [null]; nothing else about the payload is checked. *)
Theorem refresh_succeeds_iff_bounds_present
        (cfg : Config) (o : FetchOutcome) (w : World) :
  batching cfg = Automatic ->
  snd (fetchMetadata_try cfg o w) = Ok tt <->
  exists status data b,
    o = Response status (Some data) /\ nullish data = false /\
    get_prop data "bounds" = Ok b /\ nullish b = false.
Proof.
  intros _. rewrite try_completes_iff. split.
  - intros (status & data & d & -> & Hd). exists status, data.
    unfold payload_state, rbind in Hd.
    destruct (nullish data) eqn:Nd.
    + destruct (get_prop_nullish data "image_url" Nd) as [msg E].
      rewrite E in Hd. discriminate.
    + destruct (get_prop_total data "bounds" Nd) as [b Hb]. exists b.
      repeat split; auto.
      destruct (nullish b) eqn:Nb; [|reflexivity].
      destruct (nested_bounds_nullish data b Hb Nb) as [msg E].
      rewrite E in Hd.
      destruct (get_prop data "image_url"); [|discriminate].
      destruct (get_prop data "last_updated"); discriminate.
  - intros (status & data & b & -> & Nd & Hb & Nb). exists status, data.
    destruct (get_prop_total data "image_url" Nd) as [u Hu].
    destruct (get_prop_total data "last_updated" Nd) as [t Ht].
    destruct (nested_bounds_total data b Hb Nb) as [v Hv].
    exists (mkDisplay u t v). split; [reflexivity|].
    unfold payload_state, rbind. rewrite Hu, Ht, Hv. reflexivity.
Qed.

Lemma refresh_succeeds_iff_bounds_present_witness :
  snd (fetchMetadata_try cfg0 (Response 503 (Some bounds_only_payload))
         (init_world 0)) = Ok tt <->
  exists status data b,
    Response 503 (Some bounds_only_payload) = Response status (Some data) /\
    nullish data = false /\
    get_prop data "bounds" = Ok b /\ nullish b = false.
Proof.
  apply (refresh_succeeds_iff_bounds_present
           cfg0 (Response 503 (Some bounds_only_payload)) (init_world 0)).
  reflexivity.
Defined.



(** X5: a body that parses to [null] reaches no setter: hooks, rendered
    snapshots and the call log stay as they were and the [TypeError] of the
    first read is logged. *)
Theorem null_payload_calls_no_setter
        (cfg : Config) (w : World) (n : nat) (status : Z) (data : value) :
  inflight w = S n -> pending w = [] -> nullish data = true ->
  hooks (step cfg w (Complete (Response status (Some data)))) = hooks w /\
  renders (step cfg w (Complete (Response status (Some data)))) = renders w /\
  calls (step cfg w (Complete (Response status (Some data)))) = calls w /\
  exists msg,
    console (step cfg w (Complete (Response status (Some data)))) =
    console w ++ [TypeError msg].
Proof.
  intros Hn Hq Nd.
  destruct (get_prop_nullish data "image_url" Nd) as [msg Hu].
  assert (T : try_trace (Response status (Some data)) =
              ([], Some (TypeError msg))).
  { unfold try_trace. rewrite Hu. reflexivity. }
  repeat split.
  1-3: rewrite (step_complete cfg w _ n Hn), T;
       cbn [fst snd set_all fold_left caught];
       rewrite flush_idle by exact Hq; reflexivity.
  exists msg. rewrite (console_complete cfg w _ n Hn), T. reflexivity.
Qed.

Lemma null_payload_witness :
  hooks (step cfg0 (step cfg0 (init_world 0) Mount)
              (Complete (Response 200 (Some VNull)))) =
    hooks (step cfg0 (init_world 0) Mount) /\
  renders (step cfg0 (step cfg0 (init_world 0) Mount)
                (Complete (Response 200 (Some VNull)))) =
    renders (step cfg0 (init_world 0) Mount) /\
  calls (step cfg0 (step cfg0 (init_world 0) Mount)
              (Complete (Response 200 (Some VNull)))) =
    calls (step cfg0 (init_world 0) Mount) /\
  exists msg,
    console (step cfg0 (step cfg0 (init_world 0) Mount)
                  (Complete (Response 200 (Some VNull)))) =
    console (step cfg0 (init_world 0) Mount) ++ [TypeError msg].
Proof.
  refine (null_payload_calls_no_setter
            cfg0 (step cfg0 (init_world 0) Mount) 0%nat 200 VNull _ _ _);
    reflexivity.
Defined.

Lemma or_undefined_nth (l : list value) : forall i : nat,
  or_undefined (nth_error l i) = nth i l VUndef.
Proof.
  induction l as [|v l IH]; intros [|i]; simpl; auto.
Qed.

Lemma nested_bounds_of_array (data : value) (l : list value) :
  get_prop data "bounds" = Ok (VArr l) ->
  nested_bounds data =
  Ok (VArr [VArr [nth 0 l VUndef; nth 1 l VUndef];
            VArr [nth 2 l VUndef; nth 3 l VUndef]]).
Proof.
  intros Hb. unfold nested_bounds, bounds_at, rbind. rewrite Hb.
  cbn [get_index]. rewrite !or_undefined_nth. reflexivity.
Qed.



(** *** What the view shows after a refresh *)

Lemma complete_unmounted (cfg : Config) (w : World) (o : FetchOutcome) :
  phase w <> Active -> pending w = [] ->
  hooks (step cfg w (Complete o)) = hooks w /\
  renders (step cfg w (Complete o)) = renders w.
Proof.
  intros Hp Hq. destruct (inflight w) as [|n] eqn:E.
  - rewrite step_complete_idle by exact E. auto.
  - rewrite (step_complete cfg w o n E).
    set (w1 := set_all (batching cfg) (fst (try_trace o)) (with_inflight n w)).
    destruct (set_all_unmounted (batching cfg) (fst (try_trace o))
                (with_inflight n w) Hp) as (H1 & H2 & H3).
    fold w1 in H1, H2, H3.
    destruct (caught_frame (snd (try_trace o)) w1)
      as (_ & _ & C3 & C4 & C5 & _).
    rewrite flush_idle by (rewrite C4, H2; exact Hq).
    rewrite C3, C5, H1, H3. auto.
Qed.

Lemma numeric_payload_state (data : value) :
  numeric_bounds_payload data = true ->
  exists d, payload_state data = Ok d /\ numeric2x2 (ds_bounds d) = true.
Proof.
  unfold numeric_bounds_payload. intros H.
  destruct (get_prop data "bounds") as [b|] eqn:Hb; [|discriminate].
  destruct b as [| | | | |l|]; try discriminate.
  assert (Nd : nullish data = false).
  { destruct data; try reflexivity; discriminate Hb. }
  destruct (get_prop_total data "image_url" Nd) as [u Hu].
  destruct (get_prop_total data "last_updated" Nd) as [t Ht].
  pose proof (nested_bounds_of_array data l Hb) as Hn.
  exists (mkDisplay u t
            (VArr [VArr [nth 0 l VUndef; nth 1 l VUndef];
                   VArr [nth 2 l VUndef; nth 3 l VUndef]])).
  split.
  - unfold payload_state, rbind. rewrite Hu, Ht, Hn. reflexivity.
  - destruct l as [|[] [|[] [|[] [|[] l]]]]; try discriminate. reflexivity.
Qed.

Lemma numeric_bounds_run (cfg : Config) (t0 : Z) (es : list Event) :
  forallb delivers_numeric_bounds es = true ->
  numeric2x2 (bounds (hooks (run cfg (init_world t0) es))) = true.
Proof.
  intros Hes.
  assert (G : forall w, numeric2x2 (bounds (hooks w)) = true -> pending w = [] ->
              numeric2x2 (bounds (hooks (run cfg w es))) = true).
  { induction es as [|e es IH]; intros w Hb Hq; [exact Hb|].
    cbn [forallb] in Hes. apply andb_prop in Hes as [He Hes].
    change (run cfg w (e :: es)) with (run cfg (step cfg w e) es).
    apply (IH Hes); [|apply idle_step; exact Hq].
    destruct e as [| |dt|o].
    1: destruct (step_other_frame cfg w Mount) as (-> & _);
         [discriminate | exact Hb].
    1: destruct (step_other_frame cfg w Unmount) as (-> & _);
         [discriminate | exact Hb].
    1: destruct (step_other_frame cfg w (Advance dt)) as (-> & _);
         [discriminate | exact Hb].
    destruct o as [|status [data|]].
    1: destruct (complete_early_failure cfg w NetworkError Hq eq_refl)
         as (-> & _); exact Hb.
    2: destruct (complete_early_failure cfg w (Response status None) Hq eq_refl)
         as (-> & _); exact Hb.
    cbn [delivers_numeric_bounds] in He.
    destruct (numeric_payload_state data He) as (d & Hd & Hnum).
    destruct (inflight w) as [|n] eqn:En.
    - rewrite step_complete_idle by exact En. exact Hb.
    - destruct (phase w) eqn:Ep.
      + destruct (complete_unmounted cfg w (Response status (Some data)))
          as (-> & _); [rewrite Ep; discriminate | exact Hq | exact Hb].
      + destruct (complete_success cfg w n status data d Ep En Hq Hd) as (-> & _).
        exact Hnum.
      + destruct (complete_unmounted cfg w (Response status (Some data)))
          as (-> & _); [rewrite Ep; discriminate | exact Hq | exact Hb]. }
  apply G; reflexivity.
Qed.

(** X7: as long as every parsed payload that arrives carries a [bounds] array
    starting with four numbers (failed requests and unparseable bodies may
    come in between), [bounds] holds four numbers in every reachable state. *)
Theorem bounds_stay_numeric
        (cfg : Config) (t0 : Z) (es : list Event) :
  forallb delivers_numeric_bounds es = true ->
  numeric2x2 (bounds (hooks (run cfg (init_world t0) es))) = true.
Proof. apply numeric_bounds_run. Qed.

Lemma bounds_stay_numeric_witness :
  numeric2x2
    (bounds (hooks (run cfg0 (init_world 0)
       [Mount; Complete (Response 200 (Some scenario_payload));
        Advance 300000; Complete NetworkError; Advance 300000;
        Complete (Response 200 (Some bounds_only_payload)); Unmount]))) = true.
Proof.
  apply (bounds_stay_numeric cfg0 0
           [Mount; Complete (Response 200 (Some scenario_payload));
            Advance 300000; Complete NetworkError; Advance 300000;
            Complete (Response 200 (Some bounds_only_payload)); Unmount]).
  reflexivity.
Defined.

(** X8: after a refresh that delivered a non-empty [image_url] string, a
    non-empty [last_updated] string and a four-element [bounds], the header
    shows that [last_updated] verbatim and the overlay is drawn with that
    URL, the nested bounds and opacity 0.7. *)
Theorem view_after_successful_refresh
        (cfg : Config) (w : World) (n : nat) (status : Z) (data : value)
        (u t : string) (s w_ nn e : value) :
  phase w = Active -> inflight w = S n -> pending w = [] ->
  get_prop data "image_url" = Ok (VStr u) -> u <> "" ->
  get_prop data "last_updated" = Ok (VStr t) -> t <> "" ->
  get_prop data "bounds" = Ok (VArr [s; w_; nn; e]) ->
  render (hooks (step cfg w (Complete (Response status (Some data))))) =
  mkView (Rendered (VStr t))
         (Rendered (mkOverlay (VStr u) (VArr [VArr [s; w_]; VArr [nn; e]])
                              0.7%float)).
Proof.
  intros Hp Hn Hq Hu Nu Ht Nt Hb.
  assert (Hd : payload_state data =
               Ok (mkDisplay (VStr u) (VStr t) (VArr [VArr [s; w_]; VArr [nn; e]]))).
  { unfold payload_state, rbind.
    rewrite Hu, Ht, (nested_bounds_of_array data _ Hb). reflexivity. }
  destruct (complete_success cfg w n status data _ Hp Hn Hq Hd) as (-> & _).
  unfold render, and_then. cbn [lastUpdated radarUrl bounds ds_radarUrl
                                ds_lastUpdated ds_bounds truthy].
  apply String.eqb_neq in Nu, Nt. rewrite Nu, Nt. reflexivity.
Qed.

Lemma view_after_successful_refresh_witness :
  render (hooks (step cfg0 (step cfg0 (init_world 0) Mount)
                      (Complete (Response 200 (Some scenario_payload))))) =
  mkView (Rendered (VStr "2024-01-01T00:00Z"))
         (Rendered (mkOverlay (VStr "http://x/img.png")
                      (VArr [VArr [VNum 25.0%float; VNum (-120.0)%float];
                             VArr [VNum 50.0%float; VNum (-70.0)%float]])
                      0.7%float)).
Proof.
  refine (view_after_successful_refresh
            cfg0 (step cfg0 (init_world 0) Mount) 0%nat 200 scenario_payload
            "http://x/img.png" "2024-01-01T00:00Z"
            (VNum 25.0%float) (VNum (-120.0)%float)
            (VNum 50.0%float) (VNum (-70.0)%float) _ _ _ _ _ _ _ _);
    try reflexivity; discriminate.
Defined.



(** X10: whenever a snapshot, current or rendered earlier, draws the overlay, the
    overlay's URL is that snapshot's truthy [radarUrl], its bounds are a
    nested 2x2 array and its opacity is 0.7. *)
Theorem drawn_overlay_is_well_formed
        (cfg : Config) (t0 : Z) (es : list Event) (h : Hooks) (ov : Overlay) :
  h = hooks (run cfg (init_world t0) es) \/
  In h (renders (run cfg (init_world t0) es)) ->
  image_overlay (render h) = Rendered ov ->
  url ov = radarUrl h /\ truthy (url ov) = true /\
  shape2x2 (overlay_bounds ov) = true /\ opacity ov = 0.7%float.
Proof.
  intros Hh Hov.
  assert (S : sound (fun h => shape2x2 (bounds h) = true)
                (run cfg (init_world t0) es)).
  { apply sound_run.
    - intros h0 c Hh0 Hc. destruct c; simpl in *; auto.
    - apply sound_init. reflexivity. }
  destruct S as (Sh & _ & Sr & _).
  assert (Hb : shape2x2 (bounds h) = true).
  { destruct Hh as [-> | Hin]; [exact Sh|].
    rewrite Forall_forall in Sr. exact (Sr h Hin). }
  unfold render, and_then in Hov. cbn [image_overlay] in Hov.
  destruct (truthy (radarUrl h)) eqn:Tr; [|discriminate].
  injection Hov as <-. cbn [url overlay_bounds opacity]. auto.
Qed.

Lemma drawn_overlay_is_well_formed_witness :
  url (mkOverlay (VStr "http://x/err.png") default_bounds 0.7%float) =
    radarUrl (hooks (run cfg0 (init_world 0)
                       [Mount; Complete (Response 500 (Some stray_payload))])) /\
  truthy (url (mkOverlay (VStr "http://x/err.png") default_bounds 0.7%float)) = true /\
  shape2x2 (overlay_bounds
              (mkOverlay (VStr "http://x/err.png") default_bounds 0.7%float)) = true /\
  opacity (mkOverlay (VStr "http://x/err.png") default_bounds 0.7%float) = 0.7%float.
Proof.
  refine (drawn_overlay_is_well_formed
            cfg0 0 [Mount; Complete (Response 500 (Some stray_payload))]
            (hooks (run cfg0 (init_world 0)
                      [Mount; Complete (Response 500 (Some stray_payload))]))
            (mkOverlay (VStr "http://x/err.png") default_bounds 0.7%float)
            (or_introl eq_refl) _).
  vm_compute. reflexivity.
Defined.

(** ** Further behaviour of the poller *)

Lemma requests_step (cfg : Config) (w : World) (e : Event) :
  exists added,
    requests (step cfg w e) = requests w ++ added /\
    Forall (fun r => snd r = metadata_url cfg) added.
Proof.
  destruct e as [| |dt|o].
  - cbn [step]. destruct (phase w).
    + exists [(now w, metadata_url cfg)]. split; [reflexivity|].
      constructor; [reflexivity | constructor].
    + exists []. rewrite app_nil_r. auto.
    + exists []. rewrite app_nil_r. auto.
  - exists []. rewrite app_nil_r. split; [|constructor].
    cbn [step]. destruct (phase w); reflexivity.
  - cbn [step]. destruct (dt <? 0); [exists []; rewrite app_nil_r; auto|].
    unfold advance. destruct (interval w) as [due|];
      [|exists []; rewrite app_nil_r; auto].
    destruct (due <=? now w + dt); [|exists []; rewrite app_nil_r; auto].
    destruct (fire_spec cfg (Z.to_nat ((now w + dt - due) / period + 1))
                due w 0 due ltac:(lia)) as (Fr & _).
    eexists. cbn [with_now requests]. split; [exact Fr|].
    apply Forall_forall. intros r Hin. apply in_map_iff in Hin as (k & <- & _).
    reflexivity.
  - exists []. rewrite app_nil_r. split; [|constructor].
    apply step_complete_frame.
Qed.

(** X11: every request the component ever issues goes to the same URL: the
    backend base followed by [/api/radar/metadata/], where the base is
    [REACT_APP_BACKEND] when that is set and not empty and
    [http://127.0.0.1:8000] otherwise. *)
Theorem every_request_targets_metadata_endpoint
        (cfg : Config) (t0 : Z) (es : list Event) :
  Forall (fun r => snd r =
                   match REACT_APP_BACKEND cfg with
                   | Some (String c s) => String c s ++ "/api/radar/metadata/"
                   | _ => "http://127.0.0.1:8000/api/radar/metadata/"
                   end)%string
         (requests (run cfg (init_world t0) es)).
Proof.
  assert (U : metadata_url cfg =
              match REACT_APP_BACKEND cfg with
              | Some (String c s) => String c s ++ "/api/radar/metadata/"
              | _ => "http://127.0.0.1:8000/api/radar/metadata/"
              end%string).
  { unfold metadata_url, BACKEND. destruct (REACT_APP_BACKEND cfg) as [[|c s]|];
      reflexivity. }
  rewrite <- U.
  assert (G : forall w, Forall (fun r => snd r = metadata_url cfg) (requests w) ->
              Forall (fun r => snd r = metadata_url cfg) (requests (run cfg w es))).
  { induction es as [|e es IH]; intros w Hw; [exact Hw|].
    change (run cfg w (e :: es)) with (run cfg (step cfg w e) es). apply IH.
    destruct (requests_step cfg w e) as (added & -> & Ha).
    apply Forall_app; split; assumption. }
  apply G. constructor.
Qed.


Lemma pending_requests_advance (cfg : Config) (w : World) (dt : Z) :
  inflight w = List.length (requests w) ->
  inflight (step cfg w (Advance dt)) = List.length (requests (step cfg w (Advance dt))).
Proof.
  intros H. cbn [step]. destruct (dt <? 0); [exact H|].
  unfold advance. destruct (interval w) as [due|]; [|exact H].
  destruct (due <=? now w + dt); [|exact H].
  destruct (fire_spec cfg (Z.to_nat ((now w + dt - due) / period + 1))
              due w 0 due ltac:(lia)) as (Fr & _ & Fn & _).
  cbn [with_now inflight requests].
  rewrite Fr, Fn, List.length_app, List.length_map, List.length_seq, H. reflexivity.
Qed.

(** X13: a tick does not wait for the request before it: when time passes and no
    response arrives, every request issued so far is still pending, one for
    the activation and one for each elapsed interval. *)
Theorem ticks_do_not_wait_for_pending_requests
        (cfg : Config) (t0 : Z) (es : list Event) :
  forallb is_advance es = true ->
  inflight (run cfg (init_world t0) (Mount :: es)) =
    List.length (requests (run cfg (init_world t0) (Mount :: es))) /\
  inflight (run cfg (init_world t0) (Mount :: es)) =
    Z.to_nat (1 + (now (run cfg (init_world t0) (Mount :: es)) - t0) / 300000).
Proof.
  intros Hes.
  assert (G : forall w, inflight w = List.length (requests w) ->
              inflight (run cfg w es) = List.length (requests (run cfg w es))).
  { induction es as [|e es IH]; intros w Hw; [exact Hw|].
    cbn [forallb] in Hes. apply andb_prop in Hes as [He Hes].
    destruct e as [| |dt|o]; try discriminate He.
    change (run cfg w (Advance dt :: es))
      with (run cfg (step cfg w (Advance dt)) es).
    apply (IH Hes), pending_requests_advance, Hw. }
  assert (Hk : forallb keeps_mounted es = true).
  { clear G. induction es as [|e es IH]; [reflexivity|].
    cbn [forallb] in *. apply andb_prop in Hes as [He Hes].
    destruct e; try discriminate He. cbn [keeps_mounted]. apply (IH Hes). }
  change (run cfg (init_world t0) (Mount :: es))
    with (run cfg (step cfg (init_world t0) Mount) es).
  pose proof (G (step cfg (init_world t0) Mount) eq_refl) as Hl.
  split; [exact Hl|].
  destruct (polling_run cfg t0 es _ 1%nat Hk (polling_mount cfg t0)) as [n Hn].
  rewrite <- (polling_count cfg t0 _ n Hn), Hl.
  destruct Hn as (_ & _ & -> & _). unfold ticks.
  rewrite List.length_map, List.length_seq. reflexivity.
Qed.

Lemma ticks_do_not_wait_witness :
  inflight (run cfg0 (init_world 0) [Mount; Advance 300000; Advance 400000]) =
    List.length (requests (run cfg0 (init_world 0)
                        [Mount; Advance 300000; Advance 400000])) /\
  inflight (run cfg0 (init_world 0) [Mount; Advance 300000; Advance 400000]) =
    Z.to_nat (1 + (now (run cfg0 (init_world 0)
                          [Mount; Advance 300000; Advance 400000]) - 0) / 300000).
Proof.
  apply (ticks_do_not_wait_for_pending_requests cfg0 0
           [Advance 300000; Advance 400000]).
  reflexivity.
Defined.


(** ** Render errors and the life of the poller *)

Import Faults.














